(** * Youtu-RAG documentation site: locale handling of the page shells

    A shallow embedding of the TypeScript modules of the documentation site

    - [docs/app/[lang]/layout.tsx]  ([generateStaticParams], [generateMetadata],
      [Layout], the constants [zh] and [locales]),
    - [docs/app/layout.config.tsx]  ([baseOptions]),
    - the content-collection configuration ([docs], [defineConfig]),

    together with the part of the JavaScript object model these modules rest
    on: an object literal used as a lookup table, read with [table[key]], and
    the operators [||] and [??]. *)

From stdpp Require Import base strings list gmap.

Set Warnings "-register-all".
Open Scope string_scope.
Open Scope Z_scope.

(** ** JavaScript values *)

(** The values the modules handle.  A function object of the runtime is kept
    by its name; [VObjectPrototype] is the object [Object.prototype] itself. *)
Inductive value : Type :=
  | VUndefined
  | VString (s : string)
  | VArray (items : list value)
  | VObject (props : gmap string value)
  | VBuiltin (name : string)
  | VObjectPrototype.

(** [ToBoolean]: [undefined] and the empty string are falsy; arrays, objects
    and functions are truthy. *)
Definition ToBoolean (v : value) : bool :=
  match v with
  | VUndefined => false
  | VString s => negb (String.eqb s "")
  | VArray _ | VObject _ | VBuiltin _ | VObjectPrototype => true
  end.

(** [a || b] *)
Definition js_or (a b : value) : value :=
  if ToBoolean a then a else b.

(** [a ?? b] *)
Definition js_nullish (a b : value) : value :=
  match a with
  | VUndefined => b
  | _ => a
  end.

(** The properties every object literal inherits: the own properties of
    [Object.prototype].  All of them are function objects, except the
    accessor [__proto__], whose getter returns the prototype of the receiver,
    which for an object literal is [Object.prototype]. *)
Definition ObjectPrototype_entries : list (string * value) :=
  [ ("constructor", VBuiltin "Object");
    ("__defineGetter__", VBuiltin "Object.prototype.__defineGetter__");
    ("__defineSetter__", VBuiltin "Object.prototype.__defineSetter__");
    ("hasOwnProperty", VBuiltin "Object.prototype.hasOwnProperty");
    ("__lookupGetter__", VBuiltin "Object.prototype.__lookupGetter__");
    ("__lookupSetter__", VBuiltin "Object.prototype.__lookupSetter__");
    ("isPrototypeOf", VBuiltin "Object.prototype.isPrototypeOf");
    ("propertyIsEnumerable", VBuiltin "Object.prototype.propertyIsEnumerable");
    ("toString", VBuiltin "Object.prototype.toString");
    ("valueOf", VBuiltin "Object.prototype.valueOf");
    ("__proto__", VObjectPrototype);
    ("toLocaleString", VBuiltin "Object.prototype.toLocaleString") ].

Definition ObjectPrototype : gmap string value :=
  list_to_map ObjectPrototype_entries.

(** [o[key]] for an object literal [o] with own properties [o]: the own
    property if there is one, otherwise the property inherited from
    [Object.prototype], otherwise [undefined] (the chain ends there). *)
Definition Get (o : gmap string value) (key : string) : value :=
  match o !! key with
  | Some v => v
  | None => default VUndefined (ObjectPrototype !! key)
  end.

(** ** Data of [docs/app/[lang]/layout.tsx] *)

(** The route parameters, [{ lang: string }]. *)
Record Params : Type := mkParams { lang : string }.

Module LocaleItem.
Record t : Type := mk { name : string; locale : string }.
End LocaleItem.

(** The [i18n] prop handed to [ClientRootProvider]. *)
Module I18nProps.
Record t : Type := mk {
  locale : string;
  locales : list LocaleItem.t;
  translations : value
}.
End I18nProps.

(** The element [<ClientRootProvider i18n={...}>{children}</ClientRootProvider>]. *)
Inductive Element (ReactNode : Type) : Type :=
  | ClientRootProvider (i18n : I18nProps.t) (children : ReactNode).
Arguments ClientRootProvider {ReactNode} i18n children.

Definition provider_i18n {ReactNode : Type} (e : Element ReactNode) : I18nProps.t :=
  match e with ClientRootProvider i18n _ => i18n end.

Definition provider_children {ReactNode : Type} (e : Element ReactNode) : ReactNode :=
  match e with ClientRootProvider _ children => children end.

Module Icons.
Record t : Type := mk { icon : string; apple : string }.
End Icons.

Module OGImage.
Record t : Type := mk { url : string; width : Z; height : Z; alt : string }.
End OGImage.

Module OpenGraph.
Record t : Type := mk {
  title : value;
  description : value;
  images : list OGImage.t;
  locale : value;
  type : string
}.
End OpenGraph.

Module Twitter.
Record t : Type := mk {
  card : string;
  title : value;
  description : value;
  images : list string
}.
End Twitter.

Module Metadata.
Record t : Type := mk {
  title : value;
  description : value;
  keywords : value;
  icons : Icons.t;
  openGraph : OpenGraph.t;
  twitter : Twitter.t
}.
End Metadata.

(** ** Data of [docs/app/layout.config.tsx] *)

Module Image.
Record t : Type := mk { src : string; alt : string; width : Z; height : Z }.
End Image.

(** The navigation title, a fragment [<>...</>] of images. *)
Inductive NavTitle : Type :=
  | Fragment (children : list Image.t).

Module Nav.
Record t : Type := mk { title : NavTitle }.
End Nav.

Module BaseLayoutProps.
Record t (I18nConfig : Type) : Type := mk { i18n : I18nConfig; nav : Nav.t }.
Arguments mk {I18nConfig} i18n nav.
Arguments i18n {I18nConfig} _.
Arguments nav {I18nConfig} _.
End BaseLayoutProps.

(** ** [docs/app/[lang]/layout.tsx] *)

(** Chinese translations *)
Definition zh : gmap string value :=
  {[ "search" := VString "搜索" ]}.

(** Available language configurations *)
Definition locales : list LocaleItem.t :=
  [ LocaleItem.mk "English" "en";
    LocaleItem.mk "中文" "zh" ].

(** The constant tables local to [generateMetadata]; its [locales] shadows
    the list above. *)
Module GenerateMetadata.

Definition titles : gmap string value :=
  {[ "en" := VString "Youtu-RAG - An open-source multimodal RAG system for complex documents";
     "zh" := VString "Youtu-RAG - 开源的多模态 RAG 系统，专注于复杂文档理解" ]}.

Definition descriptions : gmap string value :=
  {[ "en" := VString "Youtu-RAG is an open-source multimodal RAG system designed for complex document understanding. It provides advanced capabilities for parsing, chunking, embedding, and retrieving information from various document types including PDFs, images, Excel files, and databases.";
     "zh" := VString "Youtu-RAG 是一个开源的多模态 RAG 系统，专注于复杂文档理解。提供先进的文档解析、分块、嵌入和检索能力，支持 PDF、图片、Excel、数据库等多种文档类型。" ]}.

Definition keywordsMap : gmap string value :=
  {[ "en" := VArray [ VString "Youtu-RAG"; VString "RAG"; VString "Multimodal";
                      VString "Document Understanding"; VString "AI";
                      VString "Open Source"; VString "HiChunk"; VString "Embedding" ];
     "zh" := VArray [ VString "Youtu-RAG"; VString "RAG"; VString "多模态";
                      VString "文档理解"; VString "AI"; VString "开源";
                      VString "HiChunk"; VString "向量嵌入" ] ]}.

Definition locales : gmap string value :=
  {[ "en" := VString "en_US";
     "zh" := VString "zh_CN" ]}.

End GenerateMetadata.

(** [generateMetadata({ params })], at the value [params] resolves to. *)
Definition generateMetadata (params : Params) : Metadata.t :=
  let lang := lang params in
  let titles := GenerateMetadata.titles in
  let descriptions := GenerateMetadata.descriptions in
  let keywordsMap := GenerateMetadata.keywordsMap in
  let locales := GenerateMetadata.locales in
  let title := js_or (Get titles lang) (Get titles "en") in
  let description := js_or (Get descriptions lang) (Get descriptions "en") in
  let keywords := js_or (Get keywordsMap lang) (Get keywordsMap "en") in
  let locale := js_or (Get locales lang) (Get locales "en") in
  {| Metadata.title := title;
     Metadata.description := description;
     Metadata.keywords := keywords;
     Metadata.icons :=
       {| Icons.icon := "/images/favicon.png";
          Icons.apple := "/images/favicon.png" |};
     Metadata.openGraph :=
       {| OpenGraph.title := title;
          OpenGraph.description := description;
          OpenGraph.images :=
            [ {| OGImage.url := "/images/hello-adp.png";
                 OGImage.width := 1200;
                 OGImage.height := 630;
                 OGImage.alt := "Youtu-RAG Logo" |} ];
          OpenGraph.locale := locale;
          OpenGraph.type := "website" |};
     Metadata.twitter :=
       {| Twitter.card := "summary_large_image";
          Twitter.title := title;
          Twitter.description := description;
          Twitter.images := [ "/images/hello-adp.png" ] |} |}.

(** The table [{ zh }] that [Layout] indexes with [lang]. *)
Definition translationsTable : gmap string value :=
  {[ "zh" := VObject zh ]}.

(** [Layout({ children, params })], at the value [params] resolves to. *)
Definition Layout {ReactNode : Type} (children : ReactNode) (params : Params)
  : Element ReactNode :=
  let lang := lang params in
  let translations := Get translationsTable lang in
  ClientRootProvider
    {| I18nProps.locale := lang;
       I18nProps.locales := locales;
       I18nProps.translations := translations |}
    children.

(** ** Functions that use the imports [i18n] and [getAssetPath]

    [@/lib/i18n] and [@/lib/utils] are imported by the two layout modules;
    what they export is taken as given: the configuration object [i18n], its
    [languages] list, and the function [getAssetPath]. *)
Section Imports.
Context {I18nConfig : Type}.
Context (languages : I18nConfig → list string).
Context (i18n : I18nConfig).
Context (getAssetPath : string → string).

(** Generate static params for static export:
    [i18n.languages.map((lang) => ({ lang }))]. *)
Definition generateStaticParams : list Params :=
  map (λ lang, {| lang := lang |}) (languages i18n).

(** Shared layout configurations, [docs/app/layout.config.tsx]. *)
Definition baseOptions (locale : string) : BaseLayoutProps.t I18nConfig :=
  {| BaseLayoutProps.i18n := i18n;
     BaseLayoutProps.nav :=
       {| Nav.title :=
            Fragment
              [ {| Image.src := getAssetPath "/assets/logo.svg";
                   Image.alt := "Youtu-RAG";
                   Image.width := 100;
                   Image.height := 50 |} ] |} |}.

End Imports.

(** ** The content-collection configuration *)

(** The object handed to [defineDocs]: [{ docs: {}, meta: {} }]. *)
Definition docs_options : gmap string value :=
  {[ "docs" := VObject ∅;
     "meta" := VObject ∅ ]}.

(** The object handed to [defineConfig]: [{ mdxOptions: {} }]. *)
Definition config_options : gmap string value :=
  {[ "mdxOptions" := VObject ∅ ]}.

(** The names under which collections are registered: the own keys of the
    object handed to [defineDocs]. *)
Definition registered_collections : gset string := dom docs_options.

(** The [schema] option of the collection registered as [name]. *)
Definition supplied_schema (name : string) : value :=
  match docs_options !! name with
  | Some (VObject options) => Get options "schema"
  | _ => VUndefined
  end.

(** ** Reference notions of the specification *)

(** The default locale of the metadata tables. *)
Definition default_locale : string := "en".

(** The reference rule: [table[locale]] if [locale] is a key of [table],
    otherwise [table[dflt]], over the table as a finite map. *)
Definition resolve (table : gmap string value) (locale dflt : string) : value :=
  match table !! locale with
  | Some v => v
  | None => default VUndefined (table !! dflt)
  end.

(** A selection over [table] has silently substituted the content of the
    default locale: the table holds content for the default locale, and that
    content is what was selected. *)
Definition substitutes_default (table : gmap string value) (selected : value) : Prop :=
  ∃ content, table !! default_locale = Some content ∧ selected = content.

(** A name that an object literal inherits from [Object.prototype]. *)
Definition inherited (key : string) : Prop := is_Some (ObjectPrototype !! key).

(** The expression [table[lang] || table.en] that [generateMetadata]
    evaluates for each of its four tables. *)
Definition select (table : gmap string value) (lang : string) : value :=
  js_or (Get table lang) (Get table "en").

(** Every own value of [table] is truthy. *)
Definition truthy_table (table : gmap string value) : Prop :=
  ∀ key v, table !! key = Some v → ToBoolean v = true.

(** * Properties *)

(** ** Property reads and the two operators *)

Lemma Get_own (o : gmap string value) key v :
  o !! key = Some v → Get o key = v.
Proof. unfold Get. by intros ->. Qed.

Lemma Get_inherited (o : gmap string value) key v :
  o !! key = None → ObjectPrototype !! key = Some v → Get o key = v.
Proof. unfold Get. by intros -> ->. Qed.

Lemma Get_absent (o : gmap string value) key :
  o !! key = None → ObjectPrototype !! key = None → Get o key = VUndefined.
Proof. unfold Get. by intros -> ->. Qed.

Lemma js_or_truthy a b : ToBoolean a = true → js_or a b = a.
Proof. unfold js_or. by intros ->. Qed.

Lemma js_or_undefined b : js_or VUndefined b = b.
Proof. reflexivity. Qed.

Lemma js_nullish_truthy a b : ToBoolean a = true → js_nullish a b = a.
Proof. by destruct a. Qed.

Lemma not_inherited_None key : ¬ inherited key → ObjectPrototype !! key = None.
Proof.
  unfold inherited. intros H.
  destruct (ObjectPrototype !! key) eqn:E; [| done].
  exfalso. apply H. by eexists.
Qed.

(** Whatever an object literal inherits is truthy: eleven function objects
    and [Object.prototype] itself. *)
Lemma ObjectPrototype_truthy : truthy_table ObjectPrototype.
Proof.
  intros key v H. apply elem_of_list_to_map_2 in H.
  unfold ObjectPrototype_entries in H.
  repeat (apply elem_of_cons in H as [H | H]; [by inversion H |]).
  by apply elem_of_nil in H.
Qed.

(** Neither supported locale is the name of an inherited property. *)
Lemma en_not_inherited : ObjectPrototype !! "en" = None.
Proof. reflexivity. Qed.

Lemma zh_not_inherited : ObjectPrototype !! "zh" = None.
Proof. reflexivity. Qed.

(** ** Tables with the two keys [en] and [zh] *)

Section TwoLocales.
Context (a b : value).
Abbreviation table := ({[ "en" := a; "zh" := b ]} : gmap string value).

Lemma table_lookup_en : table !! "en" = Some a.
Proof. apply lookup_insert_eq. Qed.

Lemma table_lookup_zh : table !! "zh" = Some b.
Proof. rewrite lookup_insert_ne by done. apply lookup_singleton_eq. Qed.

Lemma table_lookup_other key :
  key ≠ "en" → key ≠ "zh" → table !! key = None.
Proof.
  intros Hen Hzh. rewrite lookup_insert_ne by done.
  by apply lookup_singleton_ne.
Qed.

Lemma table_lookup_cases key v :
  table !! key = Some v → (key = "en" ∧ v = a) ∨ (key = "zh" ∧ v = b).
Proof.
  destruct (decide (key = "en")) as [-> | Hen].
  - rewrite table_lookup_en. intros [= <-]. by left.
  - destruct (decide (key = "zh")) as [-> | Hzh].
    + rewrite table_lookup_zh. intros [= <-]. by right.
    + by rewrite table_lookup_other.
Qed.

Lemma table_truthy :
  ToBoolean a = true → ToBoolean b = true → truthy_table table.
Proof.
  intros Ha Hb key v H.
  apply table_lookup_cases in H as [[_ ->] | [_ ->]]; done.
Qed.

End TwoLocales.

(** ** The selection [table[lang] || table.en] *)

Section Select.
Context (table : gmap string value).

Lemma select_own lang v :
  table !! lang = Some v → ToBoolean v = true → select table lang = v.
Proof.
  intros Hown Hv. unfold select.
  rewrite (Get_own _ _ _ Hown). by apply js_or_truthy.
Qed.

Lemma select_inherited lang v :
  table !! lang = None → ObjectPrototype !! lang = Some v →
  select table lang = v.
Proof.
  intros Hown Hproto. unfold select.
  rewrite (Get_inherited _ _ _ Hown Hproto).
  apply js_or_truthy. by eapply ObjectPrototype_truthy.
Qed.

Lemma select_absent lang :
  table !! lang = None → ObjectPrototype !! lang = None →
  select table lang = Get table "en".
Proof.
  intros Hown Hproto. unfold select.
  by rewrite (Get_absent _ _ Hown Hproto).
Qed.

(** Every read [table[lang]] is [undefined] or truthy, so [||] and [??]
    agree on it. *)
Lemma Get_undefined_or_truthy lang :
  truthy_table table →
  Get table lang = VUndefined ∨ ToBoolean (Get table lang) = true.
Proof.
  intros Htable. unfold Get.
  destruct (table !! lang) as [v |] eqn:Hown; [right; by eapply Htable |].
  destruct (ObjectPrototype !! lang) as [v |] eqn:Hproto; [| by left].
  right. by eapply ObjectPrototype_truthy.
Qed.

Lemma select_nullish lang :
  truthy_table table →
  select table lang = js_nullish (Get table lang) (Get table "en").
Proof.
  intros Htable. unfold select.
  destruct (Get_undefined_or_truthy lang Htable) as [-> | Ht]; [done |].
  by rewrite js_or_truthy, js_nullish_truthy.
Qed.

Lemma select_defined lang v :
  truthy_table table → table !! "en" = Some v →
  select table lang ≠ VUndefined.
Proof.
  intros Htable Hen. unfold select.
  destruct (Get_undefined_or_truthy lang Htable) as [-> | Ht].
  - rewrite js_or_undefined, (Get_own _ _ _ Hen).
    intros ->. by apply Htable in Hen.
  - rewrite js_or_truthy by done. by intros E; rewrite E in Ht.
Qed.

(** On a key the table owns, and on a name found nowhere along the chain,
    the selection is the reference rule. *)
Lemma select_resolve lang v :
  truthy_table table → table !! "en" = Some v →
  ObjectPrototype !! lang = None →
  select table lang = resolve table lang "en".
Proof.
  intros Htable Hen Hproto. unfold resolve.
  destruct (table !! lang) as [w |] eqn:Hown.
  - apply select_own; [done | by eapply Htable].
  - rewrite select_absent by done. by rewrite (Get_own _ _ _ Hen), Hen.
Qed.

End Select.

(** ** The four tables of [generateMetadata] *)

Lemma titles_truthy : truthy_table GenerateMetadata.titles.
Proof. by apply table_truthy. Qed.

Lemma descriptions_truthy : truthy_table GenerateMetadata.descriptions.
Proof. by apply table_truthy. Qed.

Lemma keywordsMap_truthy : truthy_table GenerateMetadata.keywordsMap.
Proof. by apply table_truthy. Qed.

Lemma locales_truthy : truthy_table GenerateMetadata.locales.
Proof. by apply table_truthy. Qed.

(** The fields of the result that depend on [lang] are the four selections;
    the Open Graph and Twitter blocks repeat the title and the description. *)
Lemma generateMetadata_selections (params : Params) :
  let m := generateMetadata params in
  Metadata.title m = select GenerateMetadata.titles (lang params) ∧
  Metadata.description m = select GenerateMetadata.descriptions (lang params) ∧
  Metadata.keywords m = select GenerateMetadata.keywordsMap (lang params) ∧
  OpenGraph.locale (Metadata.openGraph m) = select GenerateMetadata.locales (lang params) ∧
  OpenGraph.title (Metadata.openGraph m) = Metadata.title m ∧
  OpenGraph.description (Metadata.openGraph m) = Metadata.description m ∧
  Twitter.title (Metadata.twitter m) = Metadata.title m ∧
  Twitter.description (Metadata.twitter m) = Metadata.description m.
Proof. repeat split. Qed.

(** The result is a function of the four selections alone. *)
Lemma generateMetadata_ext (p q : Params) :
  select GenerateMetadata.titles (lang p) = select GenerateMetadata.titles (lang q) →
  select GenerateMetadata.descriptions (lang p) = select GenerateMetadata.descriptions (lang q) →
  select GenerateMetadata.keywordsMap (lang p) = select GenerateMetadata.keywordsMap (lang q) →
  select GenerateMetadata.locales (lang p) = select GenerateMetadata.locales (lang q) →
  generateMetadata p = generateMetadata q.
Proof.
  unfold generateMetadata, select. cbv zeta.
  by intros -> -> -> ->.
Qed.

(** The selection of a supported locale is the table's own entry. *)
Lemma select_supported (a b : value) lang :
  ToBoolean a = true → ToBoolean b = true →
  lang = "en" ∨ lang = "zh" →
  ({[ "en" := a; "zh" := b ]} : gmap string value) !! lang
  = Some (select {[ "en" := a; "zh" := b ]} lang).
Proof.
  intros Ha Hb [-> | ->].
  - rewrite (select_own _ "en" a); [apply table_lookup_en | apply table_lookup_en | done].
  - rewrite (select_own _ "zh" b); [apply table_lookup_zh | apply table_lookup_zh | done].
Qed.

(** A name that is no supported locale and is found nowhere along the chain
    selects the [en] entry. *)
Lemma select_unrecognized (a b : value) lang :
  lang ≠ "en" → lang ≠ "zh" → ObjectPrototype !! lang = None →
  select {[ "en" := a; "zh" := b ]} lang = a.
Proof.
  intros Hen Hzh Hproto.
  rewrite select_absent by (by try apply table_lookup_other).
  apply Get_own, table_lookup_en.
Qed.

(** * The claims *)

(** ** [generateMetadata] *)

(** The metadata of the default locale, evaluated. *)
Example generateMetadata_en :
  let m := generateMetadata (mkParams "en") in
  Metadata.title m
  = VString "Youtu-RAG - An open-source multimodal RAG system for complex documents" ∧
  Metadata.description m
  = VString "Youtu-RAG is an open-source multimodal RAG system designed for complex document understanding. It provides advanced capabilities for parsing, chunking, embedding, and retrieving information from various document types including PDFs, images, Excel files, and databases." ∧
  Metadata.keywords m
  = VArray [ VString "Youtu-RAG"; VString "RAG"; VString "Multimodal";
             VString "Document Understanding"; VString "AI";
             VString "Open Source"; VString "HiChunk"; VString "Embedding" ] ∧
  OpenGraph.locale (Metadata.openGraph m) = VString "en_US".
Proof. repeat split. Qed.

(** The metadata of the Chinese locale, evaluated. *)
Example generateMetadata_zh :
  let m := generateMetadata (mkParams "zh") in
  Metadata.title m
  = VString "Youtu-RAG - 开源的多模态 RAG 系统，专注于复杂文档理解" ∧
  Metadata.description m
  = VString "Youtu-RAG 是一个开源的多模态 RAG 系统，专注于复杂文档理解。提供先进的文档解析、分块、嵌入和检索能力，支持 PDF、图片、Excel、数据库等多种文档类型。" ∧
  Metadata.keywords m
  = VArray [ VString "Youtu-RAG"; VString "RAG"; VString "多模态";
             VString "文档理解"; VString "AI"; VString "开源";
             VString "HiChunk"; VString "向量嵌入" ] ∧
  OpenGraph.locale (Metadata.openGraph m) = VString "zh_CN".
Proof. repeat split. Qed.

(** C1, at the locale string [constructor]: it is neither [en] nor [zh], yet
    [titles[lang]] finds the function [Object] that every object literal
    inherits, the [||] keeps it, and so do the other three selections. The
    result is not the metadata of the default locale. *)
Theorem generateMetadata_constructor_not_default :
  let m := generateMetadata (mkParams "constructor") in
  Metadata.title m = VBuiltin "Object" ∧
  Metadata.description m = VBuiltin "Object" ∧
  Metadata.keywords m = VBuiltin "Object" ∧
  OpenGraph.locale (Metadata.openGraph m) = VBuiltin "Object" ∧
  m ≠ generateMetadata (mkParams "en").
Proof.
  cbv zeta. repeat split.
  intros H. apply (f_equal Metadata.title) in H. discriminate H.
Qed.

(** X1: fallback to the default locale, for every locale string that is neither
    supported nor the name of an inherited property: the result is the
    metadata of [en]. *)
Theorem generateMetadata_fallback_en (params : Params) :
  lang params ≠ "en" → lang params ≠ "zh" → ¬ inherited (lang params) →
  generateMetadata params = generateMetadata (mkParams "en").
Proof.
  intros Hen Hzh Hproto%not_inherited_None.
  apply generateMetadata_ext; cbn [lang];
    unfold GenerateMetadata.titles, GenerateMetadata.descriptions,
      GenerateMetadata.keywordsMap, GenerateMetadata.locales;
    rewrite (select_unrecognized _ _ (lang params)) by done; reflexivity.
Qed.

Lemma generateMetadata_fallback_en_fr :
  generateMetadata (mkParams "fr") = generateMetadata (mkParams "en").
Proof.
  apply (generateMetadata_fallback_en (mkParams "fr")); simpl.
  - discriminate.
  - discriminate.
  - unfold inherited. intros [v Hv]. discriminate Hv.
Defined.

(** C2: for a supported locale, the title, the description, the keyword list
    and the Open Graph locale tag are that locale's own entries of the four
    tables, the Open Graph and Twitter blocks repeat the title and the
    description, and the alt text of the Open Graph image is
    [Youtu-RAG Logo]. *)
Theorem generateMetadata_supported (params : Params) :
  lang params = "en" ∨ lang params = "zh" →
  let m := generateMetadata params in
  GenerateMetadata.titles !! lang params = Some (Metadata.title m) ∧
  GenerateMetadata.descriptions !! lang params = Some (Metadata.description m) ∧
  GenerateMetadata.keywordsMap !! lang params = Some (Metadata.keywords m) ∧
  GenerateMetadata.locales !! lang params
  = Some (OpenGraph.locale (Metadata.openGraph m)) ∧
  OpenGraph.title (Metadata.openGraph m) = Metadata.title m ∧
  OpenGraph.description (Metadata.openGraph m) = Metadata.description m ∧
  Twitter.title (Metadata.twitter m) = Metadata.title m ∧
  Twitter.description (Metadata.twitter m) = Metadata.description m ∧
  OGImage.alt <$> OpenGraph.images (Metadata.openGraph m) = [ "Youtu-RAG Logo" ].
Proof.
  intros Hlang. cbv zeta.
  destruct (generateMetadata_selections params)
    as (-> & -> & -> & -> & -> & -> & -> & ->).
  repeat split; by apply select_supported.
Qed.

Lemma generateMetadata_supported_zh :
  GenerateMetadata.titles !! "zh"
  = Some (Metadata.title (generateMetadata (mkParams "zh"))) ∧
  OGImage.alt <$> OpenGraph.images (Metadata.openGraph (generateMetadata (mkParams "zh")))
  = [ "Youtu-RAG Logo" ].
Proof.
  pose proof (generateMetadata_supported (mkParams "zh") (or_intror eq_refl)) as H.
  cbv zeta in H. split; [apply H | apply H].
Defined.

(** C3, at the locale string [toString]: it is not a key of any of the four
    tables, so the reference rule gives the [en] entries; the code's
    selections give the inherited function object instead. *)
Theorem selections_toString_not_resolve :
  let m := generateMetadata (mkParams "toString") in
  Metadata.title m = VBuiltin "Object.prototype.toString" ∧
  resolve GenerateMetadata.titles "toString" "en"
  = VString "Youtu-RAG - An open-source multimodal RAG system for complex documents" ∧
  Metadata.title m ≠ resolve GenerateMetadata.titles "toString" "en" ∧
  Metadata.description m ≠ resolve GenerateMetadata.descriptions "toString" "en" ∧
  Metadata.keywords m ≠ resolve GenerateMetadata.keywordsMap "toString" "en" ∧
  OpenGraph.locale (Metadata.openGraph m)
  ≠ resolve GenerateMetadata.locales "toString" "en".
Proof. cbv zeta. repeat split; discriminate. Qed.

(** X2: the four selections refine the reference rule on every locale string
    that is not the name of an inherited property (the supported locales
    included). *)
Theorem selections_refine_resolve (params : Params) :
  ¬ inherited (lang params) →
  let m := generateMetadata params in
  Metadata.title m = resolve GenerateMetadata.titles (lang params) "en" ∧
  Metadata.description m = resolve GenerateMetadata.descriptions (lang params) "en" ∧
  Metadata.keywords m = resolve GenerateMetadata.keywordsMap (lang params) "en" ∧
  OpenGraph.locale (Metadata.openGraph m)
  = resolve GenerateMetadata.locales (lang params) "en".
Proof.
  intros Hproto%not_inherited_None. cbv zeta.
  destruct (generateMetadata_selections params) as (-> & -> & -> & -> & _).
  repeat split; eapply select_resolve; try done.
  - apply titles_truthy.
  - apply descriptions_truthy.
  - apply keywordsMap_truthy.
  - apply locales_truthy.
Qed.

Lemma selections_refine_resolve_de :
  Metadata.title (generateMetadata (mkParams "de"))
  = resolve GenerateMetadata.titles "de" "en".
Proof.
  refine (proj1 (selections_refine_resolve (mkParams "de") _)).
  unfold inherited. simpl. intros [v Hv]. discriminate Hv.
Defined.

(** X3: on every locale string the code's [||] selects what [??] would select:
    no read of the four tables yields a falsy value other than
    [undefined]. *)
Theorem or_selections_eq_nullish (params : Params) :
  let m := generateMetadata params in
  let lang := lang params in
  Metadata.title m
  = js_nullish (Get GenerateMetadata.titles lang) (Get GenerateMetadata.titles "en") ∧
  Metadata.description m
  = js_nullish (Get GenerateMetadata.descriptions lang)
               (Get GenerateMetadata.descriptions "en") ∧
  Metadata.keywords m
  = js_nullish (Get GenerateMetadata.keywordsMap lang)
               (Get GenerateMetadata.keywordsMap "en") ∧
  OpenGraph.locale (Metadata.openGraph m)
  = js_nullish (Get GenerateMetadata.locales lang) (Get GenerateMetadata.locales "en").
Proof.
  cbv zeta.
  destruct (generateMetadata_selections params) as (-> & -> & -> & -> & _).
  repeat split; apply select_nullish.
  - apply titles_truthy.
  - apply descriptions_truthy.
  - apply keywordsMap_truthy.
  - apply locales_truthy.
Qed.

(** X5: on every locale string each of the four selections yields a value other
    than [undefined]. *)
Theorem metadata_selections_defined (params : Params) :
  let m := generateMetadata params in
  Metadata.title m ≠ VUndefined ∧
  Metadata.description m ≠ VUndefined ∧
  Metadata.keywords m ≠ VUndefined ∧
  OpenGraph.locale (Metadata.openGraph m) ≠ VUndefined.
Proof.
  cbv zeta.
  destruct (generateMetadata_selections params) as (-> & -> & -> & -> & _).
  repeat split; eapply select_defined; try apply table_lookup_en.
  - apply titles_truthy.
  - apply descriptions_truthy.
  - apply keywordsMap_truthy.
  - apply locales_truthy.
Qed.

(** C10: on every locale string the icons, the Open Graph image and type,
    and the Twitter card and image are the same constants. *)
Theorem generateMetadata_constant_fields (params : Params) :
  let m := generateMetadata params in
  Metadata.icons m
  = {| Icons.icon := "/images/favicon.png"; Icons.apple := "/images/favicon.png" |} ∧
  OpenGraph.images (Metadata.openGraph m)
  = [ {| OGImage.url := "/images/hello-adp.png";
         OGImage.width := 1200;
         OGImage.height := 630;
         OGImage.alt := "Youtu-RAG Logo" |} ] ∧
  OpenGraph.type (Metadata.openGraph m) = "website" ∧
  Twitter.card (Metadata.twitter m) = "summary_large_image" ∧
  Twitter.images (Metadata.twitter m) = [ "/images/hello-adp.png" ].
Proof. repeat split. Qed.

(** ** [Layout] *)

(** The translations handed to the provider are the plain read
    [{ zh }[lang]]. *)
Lemma Layout_translations {ReactNode : Type} (children : ReactNode) (params : Params) :
  I18nProps.translations (provider_i18n (Layout children params))
  = Get translationsTable (lang params).
Proof. reflexivity. Qed.

Lemma translationsTable_other lang :
  lang ≠ "zh" → translationsTable !! lang = None.
Proof. intros H. by apply lookup_singleton_ne. Qed.

(** C7: the children come back wrapped in [ClientRootProvider], whose [i18n]
    prop carries the requested locale and the two fixed language entries. *)
Theorem Layout_wraps_children {ReactNode : Type} (children : ReactNode)
    (params : Params) :
  ∃ translations,
    Layout children params
    = ClientRootProvider
        {| I18nProps.locale := lang params;
           I18nProps.locales :=
             [ {| LocaleItem.name := "English"; LocaleItem.locale := "en" |};
               {| LocaleItem.name := "中文"; LocaleItem.locale := "zh" |} ];
           I18nProps.translations := translations |}
        children.
Proof. by eexists. Qed.

(** The Chinese locale receives the Chinese translations. *)
Example Layout_translations_zh :
  I18nProps.translations (provider_i18n (Layout () (mkParams "zh")))
  = VObject {[ "search" := VString "搜索" ]}.
Proof. reflexivity. Qed.

(** C8, at the locale string [hasOwnProperty]: it is not [zh], yet the read
    [{ zh }[lang]] finds the inherited function object, and that is what the
    provider receives as its translations, not [undefined]. *)
Theorem Layout_translations_hasOwnProperty :
  I18nProps.translations (provider_i18n (Layout () (mkParams "hasOwnProperty")))
  = VBuiltin "Object.prototype.hasOwnProperty" ∧
  I18nProps.translations (provider_i18n (Layout () (mkParams "hasOwnProperty")))
  ≠ VUndefined.
Proof. split; [reflexivity | discriminate]. Qed.

(** X4: for every locale string other than [zh] that is not the name of an
    inherited property, English and unrecognized ones alike, the provider
    receives [undefined] as its translations: [Layout] has no fallback. *)
Theorem Layout_translations_undefined {ReactNode : Type} (children : ReactNode)
    (params : Params) :
  lang params ≠ "zh" → ¬ inherited (lang params) →
  I18nProps.translations (provider_i18n (Layout children params)) = VUndefined.
Proof.
  intros Hzh Hproto%not_inherited_None.
  rewrite Layout_translations.
  apply Get_absent; [by apply translationsTable_other | done].
Qed.

Lemma Layout_translations_undefined_en :
  I18nProps.translations (provider_i18n (Layout () (mkParams "en"))) = VUndefined.
Proof.
  apply (Layout_translations_undefined () (mkParams "en")); simpl.
  - discriminate.
  - unfold inherited. intros [v Hv]. discriminate Hv.
Defined.

(** ** Every locale-dependent selection *)

(** C4 as stated fails at the locale string [fr]: the table [{ zh }] that
    [Layout] reads holds nothing for the default locale, and the selection
    yields [undefined]; no content of the default locale is substituted. *)
Lemma Layout_translations_fr_no_default :
  translationsTable !! default_locale = None ∧
  I18nProps.translations (provider_i18n (Layout () (mkParams "fr"))) = VUndefined ∧
  ¬ substitutes_default translationsTable
      (I18nProps.translations (provider_i18n (Layout () (mkParams "fr")))).
Proof.
  repeat split. intros (content & Hcontent & _). discriminate Hcontent.
Qed.

(** C4, amended: for every locale string that is neither supported nor the
    name of an inherited property, each of the four selections of
    [generateMetadata] silently substitutes the [en] entry of its table,
    whereas the translations selection of [Layout], whose table has no [en]
    entry, yields [undefined]. *)
Theorem unrecognized_locale_selections {ReactNode : Type} (children : ReactNode)
    (params : Params) :
  lang params ≠ "en" → lang params ≠ "zh" → ¬ inherited (lang params) →
  let m := generateMetadata params in
  substitutes_default GenerateMetadata.titles (Metadata.title m) ∧
  substitutes_default GenerateMetadata.descriptions (Metadata.description m) ∧
  substitutes_default GenerateMetadata.keywordsMap (Metadata.keywords m) ∧
  substitutes_default GenerateMetadata.locales
    (OpenGraph.locale (Metadata.openGraph m)) ∧
  translationsTable !! default_locale = None ∧
  I18nProps.translations (provider_i18n (Layout children params)) = VUndefined.
Proof.
  intros Hen Hzh Hproto. pose proof (not_inherited_None _ Hproto) as Hnone.
  cbv zeta.
  destruct (generateMetadata_selections params) as (-> & -> & -> & -> & _).
  repeat split.
  1-4: eexists; split; [apply table_lookup_en | by apply select_unrecognized].
  rewrite Layout_translations.
  apply Get_absent; [by apply translationsTable_other | done].
Qed.

Lemma unrecognized_locale_selections_fr :
  substitutes_default GenerateMetadata.titles
    (Metadata.title (generateMetadata (mkParams "fr"))) ∧
  I18nProps.translations (provider_i18n (Layout () (mkParams "fr"))) = VUndefined.
Proof.
  assert (lang (mkParams "fr") ≠ "en") as Hen by discriminate.
  assert (lang (mkParams "fr") ≠ "zh") as Hzh by discriminate.
  assert (¬ inherited (lang (mkParams "fr"))) as Hproto.
  { unfold inherited. simpl. intros [v Hv]. discriminate Hv. }
  pose proof (unrecognized_locale_selections () (mkParams "fr") Hen Hzh Hproto) as H.
  cbv zeta in H. split; apply H.
Defined.

(** ** [generateStaticParams] *)

(** C5: one params object per language of the configuration, in the order of
    its language list, each with that language as its [lang]. *)
Theorem generateStaticParams_langs {I18nConfig : Type}
    (languages : I18nConfig → list string) (i18n : I18nConfig) :
  length (generateStaticParams languages i18n) = length (languages i18n) ∧
  lang <$> generateStaticParams languages i18n = languages i18n ∧
  ∀ i : nat,
    generateStaticParams languages i18n !! i = mkParams <$> languages i18n !! i.
Proof.
  unfold generateStaticParams. split; [| split].
  - apply length_map.
  - rewrite <- list_fmap_compose. apply list_fmap_id.
  - intros i. apply list_lookup_fmap.
Qed.

(** With the two languages of the site. *)
Example generateStaticParams_en_zh :
  generateStaticParams (λ _ : unit, [ "en"; "zh" ]) ()
  = [ mkParams "en"; mkParams "zh" ].
Proof. reflexivity. Qed.

(** ** [baseOptions] *)

(** C9: the locale argument is not used: any two locales give the same
    options, namely the imported [i18n] object and a navigation title made of
    the logo image at the asset path [/assets/logo.svg], with alt text
    [Youtu-RAG], 100 wide and 50 high. *)
Theorem baseOptions_locale_irrelevant {I18nConfig : Type} (i18n : I18nConfig)
    (getAssetPath : string → string) (l1 l2 : string) :
  baseOptions i18n getAssetPath l1 = baseOptions i18n getAssetPath l2 ∧
  BaseLayoutProps.i18n (baseOptions i18n getAssetPath l1) = i18n ∧
  Nav.title (BaseLayoutProps.nav (baseOptions i18n getAssetPath l1))
  = Fragment
      [ {| Image.src := getAssetPath "/assets/logo.svg";
           Image.alt := "Youtu-RAG";
           Image.width := 100;
           Image.height := 50 |} ].
Proof. repeat split. Qed.

(** ** The content collections *)

(** C6: exactly the two collections [docs] and [meta] are registered, each
    with an empty options object, so that no schema is supplied for either
    and the default one applies. *)
Theorem docs_collections :
  registered_collections = {[ "docs"; "meta" ]} ∧
  docs_options !! "docs" = Some (VObject ∅) ∧
  docs_options !! "meta" = Some (VObject ∅) ∧
  supplied_schema "docs" = VUndefined ∧
  supplied_schema "meta" = VUndefined.
Proof.
  split; [| repeat split].
  unfold registered_collections, docs_options.
  by rewrite dom_insert_L, dom_singleton_L.
Qed.

(** * Further properties of the layout modules *)

(** ** What an inherited name selects *)

Lemma ObjectPrototype_value key v :
  ObjectPrototype !! key = Some v →
  (∃ name, v = VBuiltin name) ∨ v = VObjectPrototype.
Proof.
  intros H. apply elem_of_list_to_map_2 in H.
  unfold ObjectPrototype_entries in H.
  repeat (apply elem_of_cons in H as [H | H];
          [inversion H; subst; (by left; eexists) || by right |]).
  by apply elem_of_nil in H.
Qed.

Lemma inherited_not_supported key :
  inherited key → key ≠ "en" ∧ key ≠ "zh".
Proof.
  intros [v Hv]. split; intros ->; discriminate Hv.
Qed.

(** On an inherited name, a table with the keys [en] and [zh] selects the
    inherited member. *)
Lemma select_two_inherited (a b : value) lang v :
  ObjectPrototype !! lang = Some v →
  select {[ "en" := a; "zh" := b ]} lang = v.
Proof.
  intros Hv.
  destruct (inherited_not_supported lang) as [Hen Hzh]; [by eexists |].
  apply select_inherited; [by apply table_lookup_other | done].
Qed.

(** X6: the result is the metadata of the default locale exactly for the
    locale strings other than [zh] that are not the name of an inherited
    property. *)
Theorem generateMetadata_en_iff (params : Params) :
  generateMetadata params = generateMetadata (mkParams "en")
  ↔ lang params ≠ "zh" ∧ ¬ inherited (lang params).
Proof.
  destruct params as [l]. cbn [lang]. split.
  - intros Heq. apply (f_equal Metadata.title) in Heq. split.
    + intros ->. discriminate Heq.
    + intros [v Hv].
      destruct (generateMetadata_selections (mkParams l)) as (Ht & _).
      cbn [lang] in Ht. rewrite Ht in Heq.
      unfold GenerateMetadata.titles in Heq at 1.
      rewrite (select_two_inherited _ _ l v Hv) in Heq.
      apply ObjectPrototype_value in Hv as [[name ->] | ->]; discriminate Heq.
  - intros [Hzh Hproto%not_inherited_None].
    destruct (decide (l = "en")) as [-> | Hen]; [done |].
    apply generateMetadata_ext; cbn [lang];
      unfold GenerateMetadata.titles, GenerateMetadata.descriptions,
        GenerateMetadata.keywordsMap, GenerateMetadata.locales;
      rewrite (select_unrecognized _ _ l) by done; reflexivity.
Qed.

(** X7: on the name of an inherited property, the title, the description,
    the keywords and the Open Graph locale are all that one inherited
    member. *)
Theorem generateMetadata_inherited (params : Params) (v : value) :
  ObjectPrototype !! lang params = Some v →
  let m := generateMetadata params in
  Metadata.title m = v ∧
  Metadata.description m = v ∧
  Metadata.keywords m = v ∧
  OpenGraph.locale (Metadata.openGraph m) = v.
Proof.
  intros Hv. cbv zeta.
  destruct (generateMetadata_selections params) as (-> & -> & -> & -> & _).
  repeat split; by apply select_two_inherited.
Qed.

Lemma generateMetadata_inherited_valueOf :
  Metadata.keywords (generateMetadata (mkParams "valueOf"))
  = VBuiltin "Object.prototype.valueOf".
Proof.
  refine (proj1 (proj2 (proj2
    (generateMetadata_inherited (mkParams "valueOf")
       (VBuiltin "Object.prototype.valueOf") _)))).
  reflexivity.
Defined.

(** X8: the provider receives the Chinese translations exactly for [zh],
    and [undefined] exactly for the other locale strings that are not the
    name of an inherited property. *)
Theorem Layout_translations_cases {ReactNode : Type} (children : ReactNode)
    (params : Params) :
  (I18nProps.translations (provider_i18n (Layout children params)) = VObject zh
   ↔ lang params = "zh") ∧
  (I18nProps.translations (provider_i18n (Layout children params)) = VUndefined
   ↔ lang params ≠ "zh" ∧ ¬ inherited (lang params)).
Proof.
  rewrite Layout_translations. destruct params as [l]. cbn [lang].
  destruct (decide (l = "zh")) as [-> | Hzh].
  { split; split; try done. by intros [? _]. }
  pose proof (translationsTable_other l Hzh) as Hown.
  destruct (ObjectPrototype !! l) as [v |] eqn:Hproto.
  - rewrite (Get_inherited _ _ _ Hown Hproto).
    split; split; try done.
    + apply ObjectPrototype_value in Hproto as [[name ->] | ->]; discriminate.
    + apply ObjectPrototype_value in Hproto as [[name ->] | ->]; discriminate.
    + intros [_ Hni]. exfalso. apply Hni. by eexists.
  - rewrite (Get_absent _ _ Hown Hproto).
    split; split; try done.
    intros _. split; [done |]. unfold inherited. rewrite Hproto.
    by intros [? ?].
Qed.

(** X11: [Layout] hands on the requested locale unchecked: it is one of the
    locales listed beside it exactly when it is [en] or [zh]. *)
Theorem Layout_locale_listed {ReactNode : Type} (children : ReactNode)
    (params : Params) :
  I18nProps.locale (provider_i18n (Layout children params))
  ∈ LocaleItem.locale <$> I18nProps.locales (provider_i18n (Layout children params))
  ↔ lang params = "en" ∨ lang params = "zh".
Proof.
  cbn. rewrite !elem_of_cons, elem_of_nil. tauto.
Qed.

(** ** Static export *)

(** X10: the static params are exactly the params of the configured
    languages, and they repeat no language unless the configuration does. *)
Theorem generateStaticParams_elem {I18nConfig : Type}
    (languages : I18nConfig → list string) (i18n : I18nConfig) :
  (∀ p, p ∈ generateStaticParams languages i18n ↔ lang p ∈ languages i18n) ∧
  (NoDup (generateStaticParams languages i18n) ↔ NoDup (languages i18n)).
Proof.
  unfold generateStaticParams. split.
  - intros [l]. cbn [lang]. rewrite list_elem_of_fmap. split.
    + by intros (l' & [= ->] & Hl').
    + intros Hl. by exists l.
  - assert (Inj (=) (=) mkParams) as Hinj by (by intros l1 l2 [= ->]).
    apply (NoDup_fmap mkParams).
Qed.

(** X9: when no configured language is the name of an inherited property,
    every statically generated page gets, for each of the four fields, what
    the reference rule gives, and its provider gets the Chinese translations
    for [zh] and [undefined] otherwise. *)
Theorem static_params_selections {I18nConfig ReactNode : Type}
    (languages : I18nConfig → list string) (i18n : I18nConfig)
    (children : ReactNode) (params : Params) :
  (∀ l, l ∈ languages i18n → ¬ inherited l) →
  params ∈ generateStaticParams languages i18n →
  let m := generateMetadata params in
  Metadata.title m = resolve GenerateMetadata.titles (lang params) "en" ∧
  Metadata.description m = resolve GenerateMetadata.descriptions (lang params) "en" ∧
  Metadata.keywords m = resolve GenerateMetadata.keywordsMap (lang params) "en" ∧
  OpenGraph.locale (Metadata.openGraph m)
  = resolve GenerateMetadata.locales (lang params) "en" ∧
  I18nProps.translations (provider_i18n (Layout children params))
  = if decide (lang params = "zh") then VObject zh else VUndefined.
Proof.
  intros Hlangs Hin. cbv zeta.
  assert (¬ inherited (lang params)) as Hni.
  { apply Hlangs. unfold generateStaticParams in Hin.
    apply list_elem_of_fmap in Hin as (l & -> & Hl). done. }
  pose proof (not_inherited_None _ Hni) as Hnone.
  destruct (generateMetadata_selections params) as (-> & -> & -> & -> & _).
  split; [| split; [| split; [| split]]].
  - eapply select_resolve; [apply titles_truthy | apply table_lookup_en | done].
  - eapply select_resolve; [apply descriptions_truthy | apply table_lookup_en | done].
  - eapply select_resolve; [apply keywordsMap_truthy | apply table_lookup_en | done].
  - eapply select_resolve; [apply locales_truthy | apply table_lookup_en | done].
  - rewrite Layout_translations. case_decide as Hzh.
    + by rewrite Hzh.
    + apply Get_absent; [by apply translationsTable_other | done].
Qed.

Lemma static_params_selections_zh :
  Metadata.title (generateMetadata (mkParams "zh"))
  = resolve GenerateMetadata.titles "zh" "en".
Proof.
  refine (proj1 (static_params_selections (λ _ : unit, [ "en"; "zh" ]) () ()
                   (mkParams "zh") _ _)).
  - intros l Hl [v Hv].
    apply elem_of_cons in Hl as [-> | Hl]; [discriminate Hv |].
    apply elem_of_cons in Hl as [-> | Hl]; [discriminate Hv |].
    by apply elem_of_nil in Hl.
  - vm_compute. apply list_elem_of_further, list_elem_of_here.
Defined.
